(** * trace: a structured-logging facade over zap

    Shallow embedding of the Go package [trace] and proofs about its
    error-field formatting, its no-op logger, its default-logger slot, its
    child-logger derivation and its context helpers.

    The repository holds two generations of the package side by side:

    - the flat facade: [interface.go] (interface without [With]/[Named],
      [NoopLogger.Zap] returning nil, default slot with a nil guard) and the
      second half of [logger.go] (the exported [SugarLogger], [NewNoopLogger],
      the field helpers [Str]/[Int]/[Bool]/[Err], [formatError], the
      package-level leveled functions): module [Flat];
    - the scoped facade: the interface with [With]/[Named] and
      [NoopLogger.Zap] returning [zap.NewNop()] (the declarations that
      follow the tests in [trace_test.go]), the default slot without a nil
      guard (the short unnamed source file), and the first half of
      [logger.go] (the unexported [sugarLogger], [NewChildLogger],
      [LoggerToContext]/[LoggerFromContext]): module [Scoped].

    Go strings are byte strings: [string] of the standard library, one
    [ascii] per byte. *)

From Stdlib Require Import List ZArith Bool Ascii String.
Import ListNotations.
Open Scope string_scope.

(** ** Bytes the facade cares about *)

Definition LF : ascii := "010"%char.   (* '\n' *)
Definition TAB : ascii := "009"%char.  (* '\t' *)

(** ** Package strings of the Go standard library (what [formatError] calls) *)

Module strings.

(** Left-to-right scan for non-overlapping occurrences of a non-empty
    [old]: at an occurrence [new] is written and the next [length old]
    bytes are skipped ([skip] counts the bytes of the occurrence that are
    still to be dropped). *)
Fixpoint replaceFrom (old new : string) (skip : nat) (s : string) : string :=
  match s with
  | EmptyString => EmptyString
  | String c s' =>
      match skip with
      | S k => replaceFrom old new k s'
      | O =>
          if prefix old s
          then new ++ replaceFrom old new (String.length old - 1) s'
          else String c (replaceFrom old new 0 s')
      end
  end.

(** An empty [old] matches before every character and at the end. Go
    splits at UTF-8 sequences there; this model splits at bytes, which is
    the same on ASCII text. The facade never passes an empty pattern. *)
Fixpoint insertBefore (new s : string) : string :=
  match s with
  | EmptyString => new
  | String c s' => new ++ String c (insertBefore new s')
  end.

(** [strings.ReplaceAll(s, old, new)]. *)
Definition ReplaceAll (s old new : string) : string :=
  if String.eqb old new then s
  else match old with
       | EmptyString => insertBefore new s
       | String _ _ => replaceFrom old new 0 s
       end.

(** [strings.Contains(s, substr)]. *)
Fixpoint Contains (s substr : string) : bool :=
  prefix substr s ||
  match s with
  | EmptyString => false
  | String _ s' => Contains s' substr
  end.

(** [strings.Join(elems, sep)]. *)
Fixpoint Join (elems : list string) (sep : string) : string :=
  match elems with
  | [] => ""
  | [e] => e
  | e :: rest => e ++ sep ++ Join rest sep
  end.

End strings.

(** Does the byte [c] occur in [s]? *)
Fixpoint occurs (c : ascii) (s : string) : bool :=
  match s with
  | EmptyString => false
  | String a s' => Ascii.eqb a c || occurs c s'
  end.

(** ** Go's [error] interface and package errors

    An [error] is nil ([None]) or a value whose [Error()] method returns its
    message ([Some message]). *)

Definition error : Type := option string.

Module errors.

(** [errors.New(text)]. *)
Definition New (text : string) : error := Some text.

Fixpoint messages (errs : list error) : list string :=
  match errs with
  | [] => []
  | None :: rest => messages rest
  | Some m :: rest => m :: messages rest
  end.

(** [errors.Join(errs...)]: nil errors are dropped, nil when none is left;
    the message is the sub-messages joined by a newline. *)
Definition Join (errs : list error) : error :=
  match messages errs with
  | [] => None
  | ms => Some (strings.Join ms (String LF ""))
  end.

End errors.

(** ** zapcore: fields, levels, cores

    zap is the external engine behind the facade. The modules [zapcore] and
    [zap] record the part of its documented behaviour the facade relies on:
    a core filters by level and writes one line per enabled sink, a logger
    carries a core and a name, [With] and [Named] build a clone and leave the
    logger they are called on as it was, [Fatal] exits the process after
    writing, and calling a method through a nil [*zap.Logger] is a nil
    dereference. Encoders and timestamps are left out: a written line keeps
    its entry and fields as data. *)

Module zapcore.

Inductive FieldType : Type :=
| UnknownType | BoolType | Int64Type | StringType.

(** [zapcore.Field] (the [Interface] member is not used by the facade). *)
Record Field : Type := mkField {
  Key : string;
  Type' : FieldType;
  Integer : Z;
  String' : string
}.

(** [zapcore.Level] is an int8. *)
Definition Level : Type := Z.
Definition DebugLevel : Level := (-1)%Z.
Definition InfoLevel : Level := 0%Z.
Definition WarnLevel : Level := 1%Z.
Definition ErrorLevel : Level := 2%Z.
Definition DPanicLevel : Level := 3%Z.
Definition PanicLevel : Level := 4%Z.
Definition FatalLevel : Level := 5%Z.

(** [l.Enabled(lvl)] for a minimum level [l]. *)
Definition Level_Enabled (l lvl : Level) : bool := (l <=? lvl)%Z.

(** The sinks the facade builds: standard output and an open file. *)
Inductive WriteSyncer : Type :=
| Stdout
| File (fd : nat).

Record Entry : Type := mkEntry {
  Level' : Level;
  LoggerName : string;
  Message : string
}.

(** One record written to one sink. *)
Record Line : Type := mkLine {
  sink : WriteSyncer;
  entry : Entry;
  fields : list Field
}.

#[local] Set Warnings "-register-all".
Inductive Core : Type :=
| ioCore (enab : Level) (out : WriteSyncer) (context : list Field)
| multiCore (cores : list Core)
| nopCore.

(** [NewCore(enc, ws, enab)]. *)
Definition NewCore (ws : WriteSyncer) (enab : Level) : Core :=
  ioCore enab ws [].

Definition NewNopCore : Core := nopCore.

(** [NewTee(cores...)]. *)
Definition NewTee (cores : list Core) : Core :=
  match cores with
  | [] => NewNopCore
  | [c] => c
  | _ => multiCore cores
  end.

Fixpoint Core_Enabled (c : Core) (lvl : Level) : bool :=
  match c with
  | ioCore enab _ _ => Level_Enabled enab lvl
  | multiCore cores => existsb (fun c' => Core_Enabled c' lvl) cores
  | nopCore => false
  end.

(** [c.With(fields)]: a clone whose encoder also carries [fields]. *)
Fixpoint Core_With (c : Core) (fs : list Field) : Core :=
  match c with
  | ioCore enab out context => ioCore enab out (context ++ fs)%list
  | multiCore cores => multiCore (map (fun c' => Core_With c' fs) cores)
  | nopCore => nopCore
  end.

(** [c.Check(ent, ce)] followed by the writes of the checked entry: every
    enabled io core writes the entry with its context and the call's
    fields. *)
Fixpoint Core_Write (c : Core) (ent : Entry) (fs : list Field) : list Line :=
  match c with
  | ioCore enab out context =>
      if Level_Enabled enab (Level' ent)
      then [mkLine out ent (context ++ fs)%list]
      else []
  | multiCore cores => flat_map (fun c' => Core_Write c' ent fs) cores
  | nopCore => []
  end.

(** The sinks of a core with the minimum level of each. *)
Fixpoint Core_outs (c : Core) : list (Level * WriteSyncer) :=
  match c with
  | ioCore enab out _ => [(enab, out)]
  | multiCore cores => flat_map Core_outs cores
  | nopCore => []
  end.

End zapcore.

(** ** The running process

    What a call of the facade can touch: the package variable
    [defaultLogger] (of the facade's interface type [L]) and what has been
    written to the sinks so far. A call returns, exits the process
    ([os.Exit]) or panics (nil dereference, method call on a nil
    interface). *)

Record Process (L : Type) : Type := mkProcess {
  defaultLogger : L;
  written : list zapcore.Line
}.
Arguments mkProcess {L} _ _.
Arguments defaultLogger {L} _.
Arguments written {L} _.

Inductive Result (S A : Type) : Type :=
| Returned (a : A) (s : S)
| Exited (code : Z) (s : S)
| Panicked.
Arguments Returned {S A} _ _.
Arguments Exited {S A} _ _.
Arguments Panicked {S A}.

Definition M (L A : Type) : Type := Process L -> Result (Process L) A.

Definition ret {L A : Type} (a : A) : M L A := fun p => Returned a p.

Definition bind {L A B : Type} (c : M L A) (k : A -> M L B) : M L B :=
  fun p =>
    match c p with
    | Returned a p' => k a p'
    | Exited code p' => Exited code p'
    | Panicked => Panicked
    end.

Definition panic {L A : Type} : M L A := fun _ => Panicked.

(** [os.Exit(code)]. *)
Definition exit {L A : Type} (code : Z) : M L A := fun p => Exited code p.

Definition write {L : Type} (ls : list zapcore.Line) : M L unit :=
  fun p => Returned tt (mkProcess (defaultLogger p) (written p ++ ls)%list).

Declare Scope proc_scope.
Delimit Scope proc_scope with proc.
Notation "x <- c ;; k" := (bind c (fun x => k))
  (at level 61, c at next level, right associativity) : proc_scope.
Notation "c ;; k" := (bind c (fun _ => k))
  (at level 61, right associativity) : proc_scope.
Open Scope proc_scope.

(** The five leveled operations of the interface. *)
Inductive Leveled : Type := atDebug | atInfo | atWarn | atError | atFatal.

(** ** zap: field constructors and loggers *)

Module zap.

Import zapcore.

(** [zap.String(key, val)]. *)
Definition String (key val : string) : Field :=
  {| Key := key; Type' := StringType; Integer := 0; String' := val |}.

(** [zap.Int(key, val)] (an int64 field). *)
Definition Int (key : string) (val : Z) : Field :=
  {| Key := key; Type' := Int64Type; Integer := val; String' := "" |}.

(** [zap.Bool(key, val)]. *)
Definition Bool (key : string) (val : bool) : Field :=
  {| Key := key; Type' := BoolType;
     Integer := if val then 1%Z else 0%Z; String' := "" |}.

Record Logger : Type := mkLogger {
  core : Core;
  name : string
}.

(** [zap.New(core)] with a non-nil core and no option. *)
Definition New (c : Core) : Logger := {| core := c; name := "" |}.

(** [zap.NewNop()]. *)
Definition NewNop : Logger := {| core := NewNopCore; name := "" |}.

(** The clone [log.Named(s)] builds: an empty segment changes nothing,
    segments are joined by a period. *)
Definition named (log : Logger) (s : string) : Logger :=
  if String.eqb s "" then log
  else {| core := core log;
          name := if String.eqb (name log) "" then s
                  else name log ++ "." ++ s |}.

(** The clone [log.With(fields...)] builds: no field changes nothing. *)
Definition with_fields (log : Logger) (fs : list Field) : Logger :=
  match fs with
  | [] => log
  | _ => {| core := Core_With (core log) fs; name := name log |}
  end.

(** The lines [log] writes for a call at [lvl]: below DPanic a disabled
    level is dropped before the entry is built. *)
Definition lines (log : Logger) (lvl : Level) (msg : string)
    (fs : list Field) : list Line :=
  if (lvl <? DPanicLevel)%Z && negb (Core_Enabled (core log) lvl)
  then []
  else Core_Write (core log) (mkEntry lvl (name log) msg) fs.

(** Methods of [*zap.Logger]: the receiver is a pointer, nil is [None]. *)
Section Methods.
Context {L : Type}.

Definition Logger_Named (log : option Logger) (s : string)
  : M L (option Logger) :=
  match log with
  | None => panic
  | Some l => ret (Some (named l s))
  end.

Definition Logger_With (log : option Logger) (fs : list Field)
  : M L (option Logger) :=
  match log with
  | None => panic
  | Some l => ret (Some (with_fields l fs))
  end.

Definition Logger_log (lvl : Level) (log : option Logger) (msg : string)
    (fs : list Field) : M L unit :=
  match log with
  | None => panic
  | Some l => write (lines l lvl msg fs)
  end.

Definition Logger_Debug := Logger_log DebugLevel.
Definition Logger_Info := Logger_log InfoLevel.
Definition Logger_Warn := Logger_log WarnLevel.
Definition Logger_Error := Logger_log ErrorLevel.

(** [Fatal] writes, then calls [os.Exit(1)], enabled or not. *)
Definition Logger_Fatal (log : option Logger) (msg : string)
    (fs : list Field) : M L unit :=
  Logger_log FatalLevel log msg fs ;; exit 1.

End Methods.

End zap.

(** ** The flat facade: interface.go and the second half of logger.go *)

Module Flat.

(** [type SugarLogger struct { Log *zap.Logger }]. *)
Record SugarLogger : Type := mkSugarLogger { Log : option zap.Logger }.

(** A value of the interface [Logger]: the nil interface, a
    [*NoopLogger] (the struct is empty, so all of them are alike) or a
    [*SugarLogger]. A non-nil interface value holds the address of an
    allocated struct, as every constructor of the package returns one
    ([&NoopLogger{}], [&SugarLogger{...}]). *)
Inductive Logger : Type :=
| Logger_nil
| Logger_noop
| Logger_sugar (l : SugarLogger).

Definition Logger_is_nil (l : Logger) : bool :=
  match l with Logger_nil => true | _ => false end.

Definition Proc : Type -> Type := M Logger.

(** *** NoopLogger (interface.go) *)

Definition NoopLogger_Debug (msg : string) (fs : list zapcore.Field)
  : Proc unit := ret tt.
Definition NoopLogger_Info (msg : string) (fs : list zapcore.Field)
  : Proc unit := ret tt.
Definition NoopLogger_Warn (msg : string) (fs : list zapcore.Field)
  : Proc unit := ret tt.
Definition NoopLogger_Error (msg : string) (fs : list zapcore.Field)
  : Proc unit := ret tt.
Definition NoopLogger_Fatal (msg : string) (fs : list zapcore.Field)
  : Proc unit := ret tt.

(** "Zap returns nil for the underlying zap logger". *)
Definition NoopLogger_Zap : option zap.Logger := None.

(** [NewNoopLogger] returns [&NoopLogger{}]. *)
Definition NewNoopLogger : Logger := Logger_noop.

(** *** SugarLogger (logger.go, second half) *)

Definition SugarLogger_Debug (l : SugarLogger) (msg : string)
    (fs : list zapcore.Field) : Proc unit :=
  match Log l with
  | Some _ => zap.Logger_Debug (Log l) msg fs
  | None => ret tt
  end.

Definition SugarLogger_Info (l : SugarLogger) (msg : string)
    (fs : list zapcore.Field) : Proc unit :=
  match Log l with
  | Some _ => zap.Logger_Info (Log l) msg fs
  | None => ret tt
  end.

Definition SugarLogger_Warn (l : SugarLogger) (msg : string)
    (fs : list zapcore.Field) : Proc unit :=
  match Log l with
  | Some _ => zap.Logger_Warn (Log l) msg fs
  | None => ret tt
  end.

Definition SugarLogger_Error (l : SugarLogger) (msg : string)
    (fs : list zapcore.Field) : Proc unit :=
  match Log l with
  | Some _ => zap.Logger_Error (Log l) msg fs
  | None => ret tt
  end.

Definition SugarLogger_Fatal (l : SugarLogger) (msg : string)
    (fs : list zapcore.Field) : Proc unit :=
  match Log l with
  | Some _ => zap.Logger_Fatal (Log l) msg fs
  | None => ret tt
  end.

Definition SugarLogger_Zap (l : SugarLogger) : option zap.Logger := Log l.

(** [New(level, prefix, logFile)]; a nil [logFile] is [None]. *)
Definition New (level : zapcore.Level) (prefix : string)
    (logFile : option nat) : Logger :=
  let stdoutSink := zapcore.Stdout in
  let core :=
    match logFile with
    | Some fd =>
        zapcore.NewTee [zapcore.NewCore stdoutSink level;
                        zapcore.NewCore (zapcore.File fd) level]
    | None => zapcore.NewCore stdoutSink level
    end in
  if negb (String.eqb prefix "")
  then Logger_sugar {| Log := Some (zap.named (zap.New core) prefix) |}
  else Logger_sugar {| Log := Some (zap.New core) |}.

(** [DisabledLevel()]. *)
Definition DisabledLevel : zapcore.Level := 127%Z.

(** *** Calls through the interface: a nil interface has no method. *)

Definition Logger_call (m : Leveled) (l : Logger) (msg : string)
    (fs : list zapcore.Field) : Proc unit :=
  match l, m with
  | Logger_nil, _ => panic
  | Logger_noop, atDebug => NoopLogger_Debug msg fs
  | Logger_noop, atInfo => NoopLogger_Info msg fs
  | Logger_noop, atWarn => NoopLogger_Warn msg fs
  | Logger_noop, atError => NoopLogger_Error msg fs
  | Logger_noop, atFatal => NoopLogger_Fatal msg fs
  | Logger_sugar s, atDebug => SugarLogger_Debug s msg fs
  | Logger_sugar s, atInfo => SugarLogger_Info s msg fs
  | Logger_sugar s, atWarn => SugarLogger_Warn s msg fs
  | Logger_sugar s, atError => SugarLogger_Error s msg fs
  | Logger_sugar s, atFatal => SugarLogger_Fatal s msg fs
  end.

Definition Logger_Zap (l : Logger) : Proc (option zap.Logger) :=
  match l with
  | Logger_nil => panic
  | Logger_noop => ret NoopLogger_Zap
  | Logger_sugar s => ret (SugarLogger_Zap s)
  end.

(** *** The default-logger slot (interface.go) *)

(** [var defaultLogger Logger = &NoopLogger{}], nothing written yet. *)
Definition start : Process Logger :=
  {| defaultLogger := Logger_noop; written := [] |}.

Definition SetDefaultLogger (logger : Logger) : Proc unit :=
  fun p =>
    if negb (Logger_is_nil logger)
    then Returned tt {| defaultLogger := logger; written := written p |}
    else Returned tt {| defaultLogger := Logger_noop; written := written p |}.

Definition GetDefaultLogger : Proc Logger :=
  fun p => Returned (defaultLogger p) p.

(** *** Package-level leveled functions (logger.go, second half) *)

Definition Debug (msg : string) (fs : list zapcore.Field) : Proc unit :=
  fun p => Logger_call atDebug (defaultLogger p) msg fs p.
Definition Info (msg : string) (fs : list zapcore.Field) : Proc unit :=
  fun p => Logger_call atInfo (defaultLogger p) msg fs p.
Definition Warn (msg : string) (fs : list zapcore.Field) : Proc unit :=
  fun p => Logger_call atWarn (defaultLogger p) msg fs p.
Definition Error (msg : string) (fs : list zapcore.Field) : Proc unit :=
  fun p => Logger_call atError (defaultLogger p) msg fs p.
Definition Fatal (msg : string) (fs : list zapcore.Field) : Proc unit :=
  fun p => Logger_call atFatal (defaultLogger p) msg fs p.

(** *** Field helpers (logger.go, second half) *)

Definition Str (key val : string) : zapcore.Field := zap.String key val.
Definition Int (key : string) (val : Z) : zapcore.Field := zap.Int key val.
Definition Bool (key : string) (val : bool) : zapcore.Field :=
  zap.Bool key val.

(** [formatError]: nil gives the empty string; otherwise the newlines of
    the message, then the tabs, are replaced by [" | "]. *)
Definition formatError (err : error) : string :=
  match err with
  | None => ""
  | Some msg =>
      strings.ReplaceAll
        (strings.ReplaceAll msg (String LF "") " | ") (String TAB "") " | "
  end.

Definition Err (err : error) : zapcore.Field :=
  match err with
  | None => zap.String "error" ""
  | Some _ => zap.String "error" (formatError err)
  end.

End Flat.

(** ** The scoped facade: the interface with With/Named, the unguarded
    default slot, and the first half of logger.go *)

Module Scoped.

(** [type sugarLogger struct { Log *zap.Logger }]. *)
Record sugarLogger : Type := mksugarLogger { Log : option zap.Logger }.

(** A value of the interface [Logger]: the nil interface, a
    [*NoopLogger] or a [*sugarLogger]. A non-nil interface value holds the
    address of an allocated struct: [sugarLogger] is unexported and [New],
    [NewChildLogger], [With] and [Named] all return [&sugarLogger{...}] or
    the receiver they were called on, so the [l == nil] disjunct of the
    guards of [With] and [Named] is never taken on such a value. *)
Inductive Logger : Type :=
| Logger_nil
| Logger_noop
| Logger_sugar (l : sugarLogger).

Definition Logger_is_nil (l : Logger) : bool :=
  match l with Logger_nil => true | _ => false end.

Definition Proc : Type -> Type := M Logger.

(** *** NoopLogger (the interface with With/Named) *)

Definition NoopLogger_Debug (msg : string) (fs : list zapcore.Field)
  : Proc unit := ret tt.
Definition NoopLogger_Info (msg : string) (fs : list zapcore.Field)
  : Proc unit := ret tt.
Definition NoopLogger_Warn (msg : string) (fs : list zapcore.Field)
  : Proc unit := ret tt.
Definition NoopLogger_Error (msg : string) (fs : list zapcore.Field)
  : Proc unit := ret tt.
Definition NoopLogger_Fatal (msg : string) (fs : list zapcore.Field)
  : Proc unit := ret tt.
Definition NoopLogger_With (fs : list zapcore.Field) : Proc Logger :=
  ret Logger_noop.
Definition NoopLogger_Named (name : string) : Proc Logger :=
  ret Logger_noop.
Definition NoopLogger_Zap : option zap.Logger := Some zap.NewNop.

(** [NewNoopLogger] returns [&NoopLogger{}]. *)
Definition NewNoopLogger : Logger := Logger_noop.

(** *** sugarLogger (logger.go, first half) *)

Definition sugarLogger_Debug (l : sugarLogger) (msg : string)
    (fs : list zapcore.Field) : Proc unit :=
  match Log l with
  | Some _ => zap.Logger_Debug (Log l) msg fs
  | None => ret tt
  end.

Definition sugarLogger_Info (l : sugarLogger) (msg : string)
    (fs : list zapcore.Field) : Proc unit :=
  match Log l with
  | Some _ => zap.Logger_Info (Log l) msg fs
  | None => ret tt
  end.

Definition sugarLogger_Warn (l : sugarLogger) (msg : string)
    (fs : list zapcore.Field) : Proc unit :=
  match Log l with
  | Some _ => zap.Logger_Warn (Log l) msg fs
  | None => ret tt
  end.

Definition sugarLogger_Error (l : sugarLogger) (msg : string)
    (fs : list zapcore.Field) : Proc unit :=
  match Log l with
  | Some _ => zap.Logger_Error (Log l) msg fs
  | None => ret tt
  end.

Definition sugarLogger_Fatal (l : sugarLogger) (msg : string)
    (fs : list zapcore.Field) : Proc unit :=
  match Log l with
  | Some _ => zap.Logger_Fatal (Log l) msg fs
  | None => ret tt
  end.

(** [With]: the receiver itself when it has no engine, else a new struct
    around [l.Log.With(fields...)]. *)
Definition sugarLogger_With (l : sugarLogger) (fs : list zapcore.Field)
  : Proc Logger :=
  match Log l with
  | None => ret (Logger_sugar l)
  | Some _ =>
      child <- zap.Logger_With (Log l) fs ;;
      ret (Logger_sugar {| Log := child |})
  end.

(** [Named]: the receiver itself when it has no engine, else a new struct
    around [l.Log.Named(name)]. *)
Definition sugarLogger_Named (l : sugarLogger) (name : string)
  : Proc Logger :=
  match Log l with
  | None => ret (Logger_sugar l)
  | Some _ =>
      child <- zap.Logger_Named (Log l) name ;;
      ret (Logger_sugar {| Log := child |})
  end.

Definition sugarLogger_Zap (l : sugarLogger) : option zap.Logger := Log l.

(** *** Calls through the interface: a nil interface has no method. *)

Definition Logger_call (m : Leveled) (l : Logger) (msg : string)
    (fs : list zapcore.Field) : Proc unit :=
  match l, m with
  | Logger_nil, _ => panic
  | Logger_noop, atDebug => NoopLogger_Debug msg fs
  | Logger_noop, atInfo => NoopLogger_Info msg fs
  | Logger_noop, atWarn => NoopLogger_Warn msg fs
  | Logger_noop, atError => NoopLogger_Error msg fs
  | Logger_noop, atFatal => NoopLogger_Fatal msg fs
  | Logger_sugar s, atDebug => sugarLogger_Debug s msg fs
  | Logger_sugar s, atInfo => sugarLogger_Info s msg fs
  | Logger_sugar s, atWarn => sugarLogger_Warn s msg fs
  | Logger_sugar s, atError => sugarLogger_Error s msg fs
  | Logger_sugar s, atFatal => sugarLogger_Fatal s msg fs
  end.

Definition Logger_With (l : Logger) (fs : list zapcore.Field)
  : Proc Logger :=
  match l with
  | Logger_nil => panic
  | Logger_noop => NoopLogger_With fs
  | Logger_sugar s => sugarLogger_With s fs
  end.

Definition Logger_Named (l : Logger) (name : string) : Proc Logger :=
  match l with
  | Logger_nil => panic
  | Logger_noop => NoopLogger_Named name
  | Logger_sugar s => sugarLogger_Named s name
  end.

Definition Logger_Zap (l : Logger) : Proc (option zap.Logger) :=
  match l with
  | Logger_nil => panic
  | Logger_noop => ret NoopLogger_Zap
  | Logger_sugar s => ret (sugarLogger_Zap s)
  end.

(** *** Constructors (logger.go, first half) *)

Definition New (level : zapcore.Level) (prefix : string)
    (logFile : option nat) : Logger :=
  let stdoutSink := zapcore.Stdout in
  let core :=
    match logFile with
    | Some fd =>
        zapcore.NewTee [zapcore.NewCore stdoutSink level;
                        zapcore.NewCore (zapcore.File fd) level]
    | None => zapcore.NewCore stdoutSink level
    end in
  if negb (String.eqb prefix "")
  then Logger_sugar {| Log := Some (zap.named (zap.New core) prefix) |}
  else Logger_sugar {| Log := Some (zap.New core) |}.

(** [NewChildLogger]: [parent.Zap()] is only called once [parent] is known
    not to be the nil interface. *)
Definition NewChildLogger (parent : Logger) (prefix : string)
  : Proc Logger :=
  if Logger_is_nil parent then ret NewNoopLogger
  else
    z <- Logger_Zap parent ;;
    match z with
    | None => ret NewNoopLogger
    | Some _ =>
        if negb (String.eqb prefix "")
        then
          z1 <- Logger_Zap parent ;;
          child <- zap.Logger_Named z1 prefix ;;
          ret (Logger_sugar {| Log := child |})
        else
          z2 <- Logger_Zap parent ;;
          ret (Logger_sugar {| Log := z2 |})
    end.

Definition DisabledLevel : zapcore.Level := 127%Z.

(** *** Context scoping helpers (logger.go, first half) *)

(** Context keys: the package's private [loggerCtxKey{}] and anyone
    else's. *)
Inductive ctxKey : Type :=
| loggerCtxKey
| otherKey (k : string).

Definition ctxKey_eqb (a b : ctxKey) : bool :=
  match a, b with
  | loggerCtxKey, loggerCtxKey => true
  | otherKey x, otherKey y => String.eqb x y
  | _, _ => false
  end.

(** A value of type [any]: nil, one of the two logger implementations,
    or a value of a type that does not implement [Logger]. *)
Inductive any : Type :=
| any_nil
| any_noop
| any_sugar (l : sugarLogger)
| any_other (v : string).

(** Passing a [Logger] where [any] is expected keeps its dynamic value;
    the nil interface stays nil. *)
Definition any_of_Logger (l : Logger) : any :=
  match l with
  | Logger_nil => any_nil
  | Logger_noop => any_noop
  | Logger_sugar s => any_sugar s
  end.

(** The type assertion [v.(Logger)] with its [ok]. *)
Definition assert_Logger (v : any) : Logger * bool :=
  match v with
  | any_nil => (Logger_nil, false)
  | any_noop => (Logger_noop, true)
  | any_sugar s => (Logger_sugar s, true)
  | any_other _ => (Logger_nil, false)
  end.

(** A (non-nil) [context.Context]: the background, or a parent extended
    by [context.WithValue]. *)
Inductive Context : Type :=
| Background
| WithValue (parent : Context) (key : ctxKey) (val : any).

(** [ctx.Value(key)]: the innermost binding, nil when there is none. *)
Fixpoint Value (ctx : Context) (key : ctxKey) : any :=
  match ctx with
  | Background => any_nil
  | WithValue parent k v =>
      if ctxKey_eqb k key then v else Value parent key
  end.

Definition any_is_nil (v : any) : bool :=
  match v with any_nil => true | _ => false end.

Definition LoggerToContext (ctx : Context) (l : Logger) : Context :=
  WithValue ctx loggerCtxKey (any_of_Logger l).

Definition LoggerFromContext (ctx : Context) : Proc Logger :=
  let v := Value ctx loggerCtxKey in
  if negb (any_is_nil v)
  then
    let (l, ok) := assert_Logger v in
    if ok && negb (Logger_is_nil l)
    then
      z <- Logger_Zap l ;;
      match z with
      | Some _ => ret l
      | None => ret NewNoopLogger
      end
    else ret NewNoopLogger
  else ret NewNoopLogger.

(** *** The default-logger slot (the unguarded variant) *)

(** [var defaultLogger = NewNoopLogger()], nothing written yet. *)
Definition start : Process Logger :=
  {| defaultLogger := NewNoopLogger; written := [] |}.

Definition SetDefaultLogger (logger : Logger) : Proc unit :=
  fun p => Returned tt {| defaultLogger := logger; written := written p |}.

Definition GetDefaultLogger : Proc Logger :=
  fun p => Returned (defaultLogger p) p.

End Scoped.

(** ** The formatting rule as the specification words it

    Every newline and every tab character becomes the separator [" | "];
    every other byte is kept. *)

Definition is_break (c : ascii) : bool := Ascii.eqb c LF || Ascii.eqb c TAB.

Fixpoint single_line (msg : string) : string :=
  match msg with
  | EmptyString => EmptyString
  | String c rest =>
      if is_break c then " | " ++ single_line rest
      else String c (single_line rest)
  end.

(** Replacing one byte: what [strings.ReplaceAll] amounts to for a pattern
    of length one (used to reason about [formatError]). *)
Fixpoint subst_byte (c : ascii) (new s : string) : string :=
  match s with
  | EmptyString => EmptyString
  | String a s' =>
      if Ascii.eqb c a then new ++ subst_byte c new s'
      else String a (subst_byte c new s')
  end.

(** ** Vocabulary for statements about several calls *)

(** The zap level each leveled operation logs at. *)
Definition level_of (m : Leveled) : zapcore.Level :=
  match m with
  | atDebug => zapcore.DebugLevel
  | atInfo => zapcore.InfoLevel
  | atWarn => zapcore.WarnLevel
  | atError => zapcore.ErrorLevel
  | atFatal => zapcore.FatalLevel
  end.

(** The package-level function of the flat facade for each operation. *)
Definition package_call (m : Leveled) (msg : string)
    (fs : list zapcore.Field) : Flat.Proc unit :=
  match m with
  | atDebug => Flat.Debug msg fs
  | atInfo => Flat.Info msg fs
  | atWarn => Flat.Warn msg fs
  | atError => Flat.Error msg fs
  | atFatal => Flat.Fatal msg fs
  end.


(** The sinks [New] wires up: standard output, then the file if any. *)
Definition New_sinks (logFile : option nat) : list zapcore.WriteSyncer :=
  zapcore.Stdout ::
  match logFile with
  | Some fd => [zapcore.File fd]
  | None => []
  end.

(** The lines of one record written to each of [sinks]. *)
Definition record_on (sinks : list zapcore.WriteSyncer) (lvl : zapcore.Level)
    (name msg : string) (fs : list zapcore.Field) : list zapcore.Line :=
  map (fun s => zapcore.mkLine s (zapcore.mkEntry lvl name msg) fs) sinks.

(** A line with the logger name replaced. *)
Definition rename_line (name : string) (l : zapcore.Line) : zapcore.Line :=
  zapcore.mkLine (zapcore.sink l)
    (zapcore.mkEntry (zapcore.Level' (zapcore.entry l)) name
       (zapcore.Message (zapcore.entry l)))
    (zapcore.fields l).

(** The process after more lines were written. *)
Definition appended {L : Type} (p : Process L) (ls : list zapcore.Line)
  : Process L :=
  {| defaultLogger := defaultLogger p; written := (written p ++ ls)%list |}.

(** The engine [New] builds: the core over the wired sinks at the given
    level, named by the prefix (no name for an empty prefix). *)
Definition New_engine (level : zapcore.Level) (prefix : string)
    (logFile : option nat) : zap.Logger :=
  {| zap.core :=
       match logFile with
       | Some fd =>
           zapcore.multiCore [zapcore.ioCore level zapcore.Stdout [];
                              zapcore.ioCore level (zapcore.File fd) []]
       | None => zapcore.ioCore level zapcore.Stdout []
       end;
     zap.name := prefix |}.

(** Logger names are joined by a period; an empty side adds nothing. *)
Definition dotted (a b : string) : string :=
  if String.eqb b "" then a
  else if String.eqb a "" then b
  else a ++ "." ++ b.

(** * Proofs *)

(** ** strings.ReplaceAll on a one-byte pattern *)

Section ReplaceByte.

Variables (c : ascii) (new : string).

Lemma prefix_empty (s : string) : prefix "" s = true.
Proof. destruct s; reflexivity. Qed.

Lemma prefix_byte (a : ascii) (s : string) :
  prefix (String c "") (String a s) = Ascii.eqb c a.
Proof.
  simpl. destruct (ascii_dec c a) as [->|Hne].
  - rewrite prefix_empty. symmetry. apply Ascii.eqb_refl.
  - symmetry. now apply Ascii.eqb_neq.
Qed.

Lemma replaceFrom_byte (s : string) :
  strings.replaceFrom (String c "") new 0 s = subst_byte c new s.
Proof.
  induction s as [|a s IH]; [reflexivity|].
  cbn [strings.replaceFrom subst_byte].
  rewrite prefix_byte. cbn [String.length Nat.sub].
  destruct (Ascii.eqb c a); now rewrite IH.
Qed.

Lemma ReplaceAll_byte (s : string) :
  String.eqb (String c "") new = false ->
  strings.ReplaceAll s (String c "") new = subst_byte c new s.
Proof.
  intros Hne. unfold strings.ReplaceAll. rewrite Hne.
  apply replaceFrom_byte.
Qed.

Lemma subst_byte_absent (s : string) :
  occurs c s = false -> subst_byte c new s = s.
Proof.
  induction s as [|a s IH]; [reflexivity|].
  cbn [occurs subst_byte]. rewrite Ascii.eqb_sym.
  destruct (Ascii.eqb c a); [discriminate|].
  cbn [orb]. intros H. now rewrite IH.
Qed.

End ReplaceByte.

(** ** formatError *)

Lemma formatError_two_passes (msg : string) :
  Flat.formatError (Some msg)
  = subst_byte TAB " | " (subst_byte LF " | " msg).
Proof.
  unfold Flat.formatError.
  rewrite !ReplaceAll_byte by reflexivity. reflexivity.
Qed.

Lemma two_passes_single_line (msg : string) :
  subst_byte TAB " | " (subst_byte LF " | " msg) = single_line msg.
Proof.
  induction msg as [|a s IH]; [reflexivity|].
  cbn [subst_byte single_line]. unfold is_break.
  rewrite (Ascii.eqb_sym a LF), (Ascii.eqb_sym a TAB).
  destruct (Ascii.eqb LF a) eqn:Hlf.
  - cbn. now rewrite IH.
  - cbn [subst_byte orb]. destruct (Ascii.eqb TAB a); now rewrite IH.
Qed.

Lemma formatError_single_line (msg : string) :
  Flat.formatError (Some msg) = single_line msg.
Proof.
  rewrite formatError_two_passes. apply two_passes_single_line.
Qed.

Lemma single_line_no_break (msg : string) :
  occurs LF (single_line msg) = false /\ occurs TAB (single_line msg) = false.
Proof.
  induction msg as [|a s [IHl IHt]]; [split; reflexivity|].
  cbn [single_line]. destruct (is_break a) eqn:Hb.
  - split; cbn; assumption.
  - unfold is_break in Hb. apply orb_false_elim in Hb as [Hl Ht].
    cbn [occurs]. rewrite Hl, Ht, IHl, IHt. split; reflexivity.
Qed.

Lemma single_line_separator (msg : string) :
  occurs LF msg || occurs TAB msg = true ->
  strings.Contains (single_line msg) " | " = true.
Proof.
  induction msg as [|a s IH]; [discriminate|].
  cbn [single_line]. destruct (is_break a) eqn:Hb.
  - intros _. cbn. now rewrite prefix_empty.
  - unfold is_break in Hb. apply orb_false_elim in Hb as [Hl Ht].
    cbn [occurs]. rewrite Hl, Ht. cbn [orb]. intros H.
    cbn [strings.Contains]. rewrite (IH H). apply orb_true_r.
Qed.

Lemma single_line_fixed (msg : string) :
  occurs LF msg = false -> occurs TAB msg = false -> single_line msg = msg.
Proof.
  induction msg as [|a s IH]; [reflexivity|].
  cbn [occurs single_line]. unfold is_break.
  destruct (Ascii.eqb a LF); [discriminate|].
  destruct (Ascii.eqb a TAB); [discriminate|].
  cbn [orb]. intros Hl Ht. now rewrite IH.
Qed.

(** C1. For every non-nil error, [Err] yields a string field keyed "error"
    whose value is the error's message with every newline and every tab
    replaced by " | "; the value holds no newline and no tab, and it holds
    the separator whenever the message held a newline or a tab. *)
Theorem Err_renders_single_line (msg : string) :
  zapcore.Key (Flat.Err (Some msg)) = "error"
  /\ zapcore.Type' (Flat.Err (Some msg)) = zapcore.StringType
  /\ zapcore.String' (Flat.Err (Some msg)) = single_line msg
  /\ occurs LF (zapcore.String' (Flat.Err (Some msg))) = false
  /\ occurs TAB (zapcore.String' (Flat.Err (Some msg))) = false
  /\ (occurs LF msg || occurs TAB msg = true ->
      strings.Contains (zapcore.String' (Flat.Err (Some msg))) " | " = true).
Proof.
  cbn [Flat.Err zap.String zapcore.Key zapcore.Type' zapcore.String'].
  rewrite formatError_single_line.
  destruct (single_line_no_break msg) as [Hl Ht].
  repeat split; try assumption. apply single_line_separator.
Qed.

(** The joined error of the package's test, rendered. *)
Lemma Err_renders_single_line_witness :
  zapcore.String'
    (Flat.Err (errors.Join [errors.New "TLS handshake timeout";
                            errors.New "connection error";
                            errors.New "handle auth callback"]))
  = "TLS handshake timeout | connection error | handle auth callback"
  /\ strings.Contains
       (zapcore.String' (Flat.Err (Some ("a" ++ String LF "b" ++ String TAB "c"))))
       " | " = true.
Proof.
  split; [reflexivity|].
  apply (Err_renders_single_line ("a" ++ String LF "b" ++ String TAB "c")).
  reflexivity.
Defined.

(** C6. [Err(nil)] is the string field keyed "error" with the empty string
    as its value: a field is always produced. *)
Theorem Err_nil_empty_string :
  Flat.Err None = zap.String "error" ""
  /\ zapcore.Key (Flat.Err None) = "error"
  /\ zapcore.Type' (Flat.Err None) = zapcore.StringType
  /\ zapcore.String' (Flat.Err None) = "".
Proof. repeat split. Qed.

(** C10. Formatting is idempotent: formatting a message, wrapping the
    result in an error and formatting again gives the same string. *)
Theorem formatError_idempotent (err : error) :
  Flat.formatError (errors.New (Flat.formatError err)) = Flat.formatError err.
Proof.
  destruct err as [msg|]; [|reflexivity].
  unfold errors.New. rewrite !formatError_single_line.
  destruct (single_line_no_break msg) as [Hl Ht].
  now apply single_line_fixed.
Qed.

(** ** The no-op logger, loggers without an engine, the default slot *)

(** Through a nil [*zap.Logger] the engine's own methods dereference nil:
    the guard [l.Log != nil] of the facade is what keeps a call safe. *)
Lemma zap_call_through_nil_panics (L : Type) (lvl : zapcore.Level)
    (msg : string) (fs : list zapcore.Field) (p : Process L) :
  zap.Logger_log lvl None msg fs p = Panicked
  /\ zap.Logger_Fatal None msg fs p = Panicked.
Proof. split; reflexivity. Qed.

(** The inert engine writes nothing, whatever the level. *)
Lemma NewNop_writes_nothing (lvl : zapcore.Level) (msg : string)
    (fs : list zapcore.Field) :
  zap.lines zap.NewNop lvl msg fs = [].
Proof.
  unfold zap.lines. cbn. now destruct (lvl <? zapcore.DPanicLevel)%Z.
Qed.

(** In interface.go the accessor of the no-op logger gives nil: there it is
    not an engine handle. *)
Lemma Flat_NoopLogger_Zap_is_nil :
  Flat.Logger_Zap Flat.NewNoopLogger Flat.start = Returned None Flat.start
  /\ ~ (exists h, Flat.Logger_Zap Flat.NewNoopLogger Flat.start
                  = Returned (Some h) Flat.start).
Proof. split; [reflexivity|]. intros [h H]. discriminate H. Qed.

(** C3 (amended). Every leveled operation of the no-op logger returns at
    once and leaves the process as it was, in both generations of the
    interface; its accessor [Zap()] gives nil in interface.go and a fresh
    inert engine, which writes nothing, in the interface with With/Named. *)
Theorem NoopLogger_is_inert (m : Leveled) (msg : string)
    (fs : list zapcore.Field) :
  (forall p, Flat.Logger_call m Flat.Logger_noop msg fs p = Returned tt p)
  /\ (forall p, Scoped.Logger_call m Scoped.Logger_noop msg fs p = Returned tt p)
  /\ (forall p, Flat.Logger_Zap Flat.Logger_noop p = Returned None p)
  /\ (forall p, Scoped.Logger_Zap Scoped.Logger_noop p
                = Returned (Some zap.NewNop) p)
  /\ (forall lvl msg' fs', zap.lines zap.NewNop lvl msg' fs' = []).
Proof.
  repeat split; try (destruct m; reflexivity).
  intros. apply NewNop_writes_nothing.
Qed.

(** C4. On a concrete logger whose engine handle is nil, each of the five
    leveled calls returns normally and writes nothing, for the exported
    [SugarLogger] and for the unexported [sugarLogger] alike. *)
Theorem nil_engine_calls_are_skipped (m : Leveled) (msg : string)
    (fs : list zapcore.Field) :
  (forall p, Flat.Logger_call m (Flat.Logger_sugar {| Flat.Log := None |})
               msg fs p = Returned tt p)
  /\ (forall p, Scoped.Logger_call m
                  (Scoped.Logger_sugar {| Scoped.Log := None |})
                  msg fs p = Returned tt p).
Proof. split; intros p; destruct m; reflexivity. Qed.

(** C7. At process start the default slot holds the no-op logger: a leveled
    call on what [GetDefaultLogger] returns, or through the package-level
    functions, returns normally with nothing written. *)
Theorem default_logger_starts_silent (m : Leveled) (msg : string)
    (fs : list zapcore.Field) :
  Flat.GetDefaultLogger Flat.start = Returned Flat.Logger_noop Flat.start
  /\ Scoped.GetDefaultLogger Scoped.start
     = Returned Scoped.Logger_noop Scoped.start
  /\ (l <- Flat.GetDefaultLogger ;; Flat.Logger_call m l msg fs) Flat.start
     = Returned tt Flat.start
  /\ (l <- Scoped.GetDefaultLogger ;; Scoped.Logger_call m l msg fs)
       Scoped.start
     = Returned tt Scoped.start
  /\ Flat.Debug msg fs Flat.start = Returned tt Flat.start
  /\ Flat.Info msg fs Flat.start = Returned tt Flat.start
  /\ Flat.Warn msg fs Flat.start = Returned tt Flat.start
  /\ Flat.Error msg fs Flat.start = Returned tt Flat.start
  /\ Flat.Fatal msg fs Flat.start = Returned tt Flat.start
  /\ written Flat.start = [] /\ written Scoped.start = [].
Proof. repeat split; destruct m; reflexivity. Qed.

(** The guarded setter of interface.go: a nil argument resets the slot to
    the no-op logger, whatever it held. *)
Lemma guarded_SetDefaultLogger_nil (p : Process Flat.Logger) :
  (Flat.SetDefaultLogger Flat.Logger_nil ;; Flat.GetDefaultLogger) p
  = Returned Flat.Logger_noop
      {| defaultLogger := Flat.Logger_noop; written := written p |}.
Proof. reflexivity. Qed.

(** C2 (the unguarded setter). The setter without a nil guard stores the
    nil interface: [GetDefaultLogger] then returns nil, and a leveled call
    on it panics. *)
Theorem unguarded_SetDefaultLogger_nil (p : Process Scoped.Logger)
    (m : Leveled) (msg : string) (fs : list zapcore.Field) :
  (Scoped.SetDefaultLogger Scoped.Logger_nil ;; Scoped.GetDefaultLogger) p
  = Returned Scoped.Logger_nil
      {| defaultLogger := Scoped.Logger_nil; written := written p |}
  /\ (Scoped.SetDefaultLogger Scoped.Logger_nil ;;
      l <- Scoped.GetDefaultLogger ;;
      Scoped.Logger_call m l msg fs) p = Panicked.
Proof. split; reflexivity. Qed.

(** ** Cores and engines under With and Named *)

Lemma Core_ind_nested (P : zapcore.Core -> Prop) :
  (forall enab out context, P (zapcore.ioCore enab out context)) ->
  (forall cores, Forall P cores -> P (zapcore.multiCore cores)) ->
  P zapcore.nopCore ->
  forall c, P c.
Proof.
  intros Hio Hmulti Hnop. fix IH 1. intros [enab out context|cores|].
  - apply Hio.
  - apply Hmulti. induction cores as [|c cs IHcs]; constructor.
    + apply IH.
    + exact IHcs.
  - exact Hnop.
Qed.

Lemma Core_With_outs (c : zapcore.Core) (fs : list zapcore.Field) :
  zapcore.Core_outs (zapcore.Core_With c fs) = zapcore.Core_outs c.
Proof.
  induction c as [enab out context|cores IH|] using Core_ind_nested;
    [reflexivity| |reflexivity].
  cbn [zapcore.Core_With zapcore.Core_outs].
  induction IH as [|c cs Hc _ IHcs]; [reflexivity|].
  cbn [map flat_map]. now rewrite Hc, IHcs.
Qed.

Lemma Core_With_Enabled (c : zapcore.Core) (fs : list zapcore.Field)
    (lvl : zapcore.Level) :
  zapcore.Core_Enabled (zapcore.Core_With c fs) lvl
  = zapcore.Core_Enabled c lvl.
Proof.
  induction c as [enab out context|cores IH|] using Core_ind_nested;
    [reflexivity| |reflexivity].
  cbn [zapcore.Core_With zapcore.Core_Enabled].
  induction IH as [|c cs Hc _ IHcs]; [reflexivity|].
  cbn [map existsb]. now rewrite Hc, IHcs.
Qed.

Lemma Core_With_Write (c : zapcore.Core) (fs call : list zapcore.Field)
    (ent : zapcore.Entry) :
  zapcore.Core_Write (zapcore.Core_With c fs) ent call
  = zapcore.Core_Write c ent (fs ++ call)%list.
Proof.
  induction c as [enab out context|cores IH|] using Core_ind_nested.
  - cbn [zapcore.Core_With zapcore.Core_Write].
    now rewrite <- app_assoc.
  - cbn [zapcore.Core_With zapcore.Core_Write].
    induction IH as [|c cs Hc _ IHcs]; [reflexivity|].
    cbn [map flat_map]. now rewrite Hc, IHcs.
  - reflexivity.
Qed.

(** A record of the child with call fields [call] is the record the parent
    would write with [fs] put in front of them. *)
Lemma with_fields_lines (h : zap.Logger) (fs call : list zapcore.Field)
    (lvl : zapcore.Level) (msg : string) :
  zap.lines (zap.with_fields h fs) lvl msg call
  = zap.lines h lvl msg (fs ++ call)%list.
Proof.
  destruct fs as [|f fs]; [reflexivity|].
  unfold zap.lines, zap.with_fields. cbn [zap.core zap.name].
  now rewrite Core_With_Enabled, Core_With_Write.
Qed.

Lemma with_fields_same_outs (h : zap.Logger) (fs : list zapcore.Field) :
  zapcore.Core_outs (zap.core (zap.with_fields h fs))
  = zapcore.Core_outs (zap.core h)
  /\ zap.name (zap.with_fields h fs) = zap.name h.
Proof.
  destruct fs as [|f fs]; [split; reflexivity|].
  cbn [zap.with_fields zap.core zap.name]. split; [|reflexivity].
  apply Core_With_outs.
Qed.

Lemma named_same_core (h : zap.Logger) (s : string) :
  zap.core (zap.named h s) = zap.core h.
Proof. unfold zap.named. now destruct (String.eqb s ""). Qed.

Lemma named_name (h : zap.Logger) (s : string) :
  s <> "" ->
  zap.name (zap.named h s)
  = if String.eqb (zap.name h) "" then s else zap.name h ++ "." ++ s.
Proof.
  intros Hs. unfold zap.named.
  destruct (String.eqb s "") eqn:E; [|reflexivity].
  now apply String.eqb_eq in E.
Qed.

(** ** Derived loggers *)

Lemma sugarLogger_With_returns (l : Scoped.sugarLogger)
    (fs : list zapcore.Field) (p : Process Scoped.Logger) :
  exists child, Scoped.sugarLogger_With l fs p = Returned child p.
Proof.
  unfold Scoped.sugarLogger_With. destruct (Scoped.Log l); eexists; reflexivity.
Qed.

Lemma sugarLogger_Named_returns (l : Scoped.sugarLogger) (n : string)
    (p : Process Scoped.Logger) :
  exists child, Scoped.sugarLogger_Named l n p = Returned child p.
Proof.
  unfold Scoped.sugarLogger_Named. destruct (Scoped.Log l); eexists; reflexivity.
Qed.

(** C8. [With] on a logger with an engine returns a new handle around the
    engine's clone: same sinks and levels, same name, and every record of
    the child carries the given fields. The call writes nothing and changes
    nothing in the process, and a later leveled call on the receiver behaves
    as if [With] had never been called. [Named] likewise returns a handle
    around the renamed clone, with the same core, and leaves the receiver as
    it was. On a handle without an engine both return the receiver itself;
    on the no-op logger too. *)
Theorem With_Named_leave_receiver (l : Scoped.sugarLogger) (h : zap.Logger)
    (fs : list zapcore.Field) (n : string) (p : Process Scoped.Logger) :
  Scoped.sugarLogger_With {| Scoped.Log := Some h |} fs p
  = Returned (Scoped.Logger_sugar
                {| Scoped.Log := Some (zap.with_fields h fs) |}) p
  /\ zapcore.Core_outs (zap.core (zap.with_fields h fs))
     = zapcore.Core_outs (zap.core h)
  /\ zap.name (zap.with_fields h fs) = zap.name h
  /\ (forall lvl msg call,
        zap.lines (zap.with_fields h fs) lvl msg call
        = zap.lines h lvl msg (fs ++ call)%list)
  /\ (forall m msg call,
        (child <- Scoped.sugarLogger_With l fs ;;
         Scoped.Logger_call m (Scoped.Logger_sugar l) msg call) p
        = Scoped.Logger_call m (Scoped.Logger_sugar l) msg call p)
  /\ Scoped.sugarLogger_Named {| Scoped.Log := Some h |} n p
     = Returned (Scoped.Logger_sugar
                   {| Scoped.Log := Some (zap.named h n) |}) p
  /\ zap.core (zap.named h n) = zap.core h
  /\ (forall m msg call,
        (child <- Scoped.sugarLogger_Named l n ;;
         Scoped.Logger_call m (Scoped.Logger_sugar l) msg call) p
        = Scoped.Logger_call m (Scoped.Logger_sugar l) msg call p)
  /\ Scoped.sugarLogger_With {| Scoped.Log := None |} fs p
     = Returned (Scoped.Logger_sugar {| Scoped.Log := None |}) p
  /\ Scoped.sugarLogger_Named {| Scoped.Log := None |} n p
     = Returned (Scoped.Logger_sugar {| Scoped.Log := None |}) p
  /\ Scoped.Logger_With Scoped.Logger_noop fs p
     = Returned Scoped.Logger_noop p
  /\ Scoped.Logger_Named Scoped.Logger_noop n p
     = Returned Scoped.Logger_noop p.
Proof.
  destruct (with_fields_same_outs h fs) as [Houts Hname].
  repeat split; try reflexivity; try assumption.
  - intros. apply with_fields_lines.
  - intros m msg call. unfold bind.
    destruct (sugarLogger_With_returns l fs p) as [child ->]. reflexivity.
  - apply named_same_core.
  - intros m msg call. unfold bind.
    destruct (sugarLogger_Named_returns l n p) as [child ->]. reflexivity.
Qed.

(** C5. [NewChildLogger] returns the no-op logger when the parent is the
    nil interface or its [Zap()] is nil; otherwise it returns a concrete
    logger around the parent's engine, renamed with the prefix when the
    prefix is not empty and the very same engine when it is. One of the
    three cases always applies, and the call changes nothing in the
    process. *)
Theorem NewChildLogger_cases (parent : Scoped.Logger) (prefix : string)
    (p : Process Scoped.Logger) :
  (parent = Scoped.Logger_nil \/ Scoped.Logger_Zap parent p = Returned None p ->
   Scoped.NewChildLogger parent prefix p = Returned Scoped.NewNoopLogger p)
  /\ (forall h,
        parent <> Scoped.Logger_nil ->
        Scoped.Logger_Zap parent p = Returned (Some h) p ->
        (prefix <> "" ->
         Scoped.NewChildLogger parent prefix p
         = Returned (Scoped.Logger_sugar
                       {| Scoped.Log := Some (zap.named h prefix) |}) p
         /\ zap.core (zap.named h prefix) = zap.core h
         /\ zap.name (zap.named h prefix)
            = if String.eqb (zap.name h) "" then prefix
              else zap.name h ++ "." ++ prefix)
        /\ (prefix = "" ->
            Scoped.NewChildLogger parent prefix p
            = Returned (Scoped.Logger_sugar {| Scoped.Log := Some h |}) p))
  /\ (parent = Scoped.Logger_nil
      \/ Scoped.Logger_Zap parent p = Returned None p
      \/ exists h, parent <> Scoped.Logger_nil
                   /\ Scoped.Logger_Zap parent p = Returned (Some h) p).
Proof.
  split; [|split].
  - intros [->|Hz]; [reflexivity|].
    destruct parent as [| |[[h|]]]; try reflexivity; discriminate Hz.
  - intros h Hnil Hz. split.
    + intros Hp. apply String.eqb_neq in Hp.
      split; [|split; [apply named_same_core|apply named_name;
                                             now apply String.eqb_neq]].
      destruct parent as [| |[[h'|]]]; try congruence;
        unfold Scoped.NewChildLogger, bind; cbn in *;
        inversion Hz; subst h; now rewrite Hp.
    + intros ->.
      destruct parent as [| |[[h'|]]]; try congruence;
        unfold Scoped.NewChildLogger, bind; cbn in *;
        inversion Hz; subst h; reflexivity.
  - destruct parent as [| |[[h|]]].
    + now left.
    + right; right. eexists; split; [discriminate|reflexivity].
    + right; right. eexists; split; [discriminate|reflexivity].
    + right; left. reflexivity.
Qed.

(** A child of a logger built by [New]: the prefix is appended to the
    parent's name; a nil parent gives the no-op logger. *)
Lemma NewChildLogger_cases_witness :
  Scoped.NewChildLogger
    (Scoped.New zapcore.InfoLevel "app" None) "http" Scoped.start
  = Returned
      (Scoped.Logger_sugar
         {| Scoped.Log :=
              Some {| zap.core :=
                        zapcore.ioCore zapcore.InfoLevel zapcore.Stdout [];
                      zap.name := "app.http" |} |})
      Scoped.start
  /\ Scoped.NewChildLogger Scoped.Logger_nil "http" Scoped.start
     = Returned Scoped.NewNoopLogger Scoped.start.
Proof.
  split.
  - apply (proj1 (proj1 (proj1 (proj2
      (NewChildLogger_cases (Scoped.New zapcore.InfoLevel "app" None)
         "http" Scoped.start))
      {| zap.core := zapcore.ioCore zapcore.InfoLevel zapcore.Stdout [];
         zap.name := "app" |}
      ltac:(discriminate) eq_refl) ltac:(discriminate))).
  - apply (proj1 (NewChildLogger_cases Scoped.Logger_nil "http" Scoped.start)).
    left. reflexivity.
Defined.

(** ** Loggers carried by a context *)

Lemma any_of_Logger_inj (l l' : Scoped.Logger) :
  Scoped.any_of_Logger l = Scoped.any_of_Logger l' -> l = l'.
Proof. destruct l, l'; cbn; congruence. Qed.

Lemma Value_LoggerToContext (ctx : Scoped.Context) (l : Scoped.Logger) :
  Scoped.Value (Scoped.LoggerToContext ctx l) Scoped.loggerCtxKey
  = Scoped.any_of_Logger l.
Proof. reflexivity. Qed.

(** A binding under somebody else's key does not hide the logger. *)
Lemma LoggerFromContext_other_key (ctx : Scoped.Context) (k : string)
    (v : Scoped.any) (p : Process Scoped.Logger) :
  Scoped.LoggerFromContext (Scoped.WithValue ctx (Scoped.otherKey k) v) p
  = Scoped.LoggerFromContext ctx p.
Proof. reflexivity. Qed.

(** C9. [LoggerFromContext] returns the logger bound in the context when
    there is one, it is not nil and its [Zap()] is not nil; in every other
    case it returns the no-op logger. It always returns, never nil, and
    changes nothing in the process; what [LoggerToContext] attached is what
    comes back when it is valid. *)
Theorem LoggerFromContext_never_nil (ctx : Scoped.Context)
    (p : Process Scoped.Logger) :
  (forall l h,
      Scoped.Value ctx Scoped.loggerCtxKey = Scoped.any_of_Logger l ->
      l <> Scoped.Logger_nil ->
      Scoped.Logger_Zap l p = Returned (Some h) p ->
      Scoped.LoggerFromContext ctx p = Returned l p)
  /\ ((forall l h,
          Scoped.Value ctx Scoped.loggerCtxKey = Scoped.any_of_Logger l ->
          l <> Scoped.Logger_nil ->
          Scoped.Logger_Zap l p <> Returned (Some h) p) ->
      Scoped.LoggerFromContext ctx p = Returned Scoped.NewNoopLogger p)
  /\ (exists l, Scoped.LoggerFromContext ctx p = Returned l p
                /\ l <> Scoped.Logger_nil)
  /\ (forall l h,
        l <> Scoped.Logger_nil ->
        Scoped.Logger_Zap l p = Returned (Some h) p ->
        Scoped.LoggerFromContext (Scoped.LoggerToContext ctx l) p
        = Returned l p).
Proof.
  assert (Hfound : forall c l h,
    Scoped.Value c Scoped.loggerCtxKey = Scoped.any_of_Logger l ->
    l <> Scoped.Logger_nil ->
    Scoped.Logger_Zap l p = Returned (Some h) p ->
    Scoped.LoggerFromContext c p = Returned l p).
  { intros c l h Hv Hnil Hz. unfold Scoped.LoggerFromContext. rewrite Hv.
    destruct l as [| |[[h'|]]]; try congruence; try reflexivity.
    discriminate Hz. }
  split; [apply Hfound|]. split; [|split].
  - intros Hnone. unfold Scoped.LoggerFromContext.
    destruct (Scoped.Value ctx Scoped.loggerCtxKey) as [| |[[h|]]|v] eqn:Hv;
      try reflexivity.
    exfalso.
    apply (Hnone (Scoped.Logger_sugar {| Scoped.Log := Some h |}) h);
      [reflexivity|discriminate|reflexivity].
  - unfold Scoped.LoggerFromContext.
    destruct (Scoped.Value ctx Scoped.loggerCtxKey) as [| |[[h|]]|v];
      eexists; (split; [reflexivity|discriminate]).
  - intros l h Hnil Hz.
    apply (Hfound _ l h); [apply Value_LoggerToContext|assumption..].
Qed.

(** A request-scoped logger attached to the background context comes back;
    the bare background gives the no-op logger. *)
Lemma LoggerFromContext_never_nil_witness :
  Scoped.LoggerFromContext
    (Scoped.LoggerToContext Scoped.Background
       (Scoped.New zapcore.InfoLevel "req" None)) Scoped.start
  = Returned (Scoped.New zapcore.InfoLevel "req" None) Scoped.start
  /\ Scoped.LoggerFromContext Scoped.Background Scoped.start
     = Returned Scoped.NewNoopLogger Scoped.start.
Proof.
  split.
  - apply (proj1 (LoggerFromContext_never_nil
                    (Scoped.LoggerToContext Scoped.Background
                       (Scoped.New zapcore.InfoLevel "req" None))
                    Scoped.start)
             (Scoped.New zapcore.InfoLevel "req" None)
             {| zap.core := zapcore.ioCore zapcore.InfoLevel zapcore.Stdout [];
                zap.name := "req" |}).
    + reflexivity.
    + discriminate.
    + reflexivity.
  - apply (proj1 (proj2 (LoggerFromContext_never_nil Scoped.Background
                           Scoped.start))).
    intros l h Hv Hnil. destruct l; [congruence|discriminate Hv..].
Defined.

(** ** The scenarios of trace_test.go, run on the model *)

(** TestNew, stdout only: one line on standard output, at INFO, with the
    message and the prefix as the logger's name. *)
Example New_stdout_only :
  Flat.Logger_call atInfo (Flat.New zapcore.InfoLevel "test_prefix" None)
    "hello stdout" [] Flat.start
  = Returned tt
      {| defaultLogger := Flat.Logger_noop;
         written :=
           [zapcore.mkLine zapcore.Stdout
              (zapcore.mkEntry zapcore.InfoLevel "test_prefix" "hello stdout")
              []] |}.
Proof. reflexivity. Qed.

(** TestNew, stdout and file: the record goes to both sinks. *)
Example New_stdout_and_file :
  Flat.Logger_call atError (Flat.New zapcore.InfoLevel "multi_logger" (Some 3))
    "multi output" [] Flat.start
  = Returned tt
      {| defaultLogger := Flat.Logger_noop;
         written :=
           [zapcore.mkLine zapcore.Stdout
              (zapcore.mkEntry zapcore.ErrorLevel "multi_logger" "multi output")
              [];
            zapcore.mkLine (zapcore.File 3)
              (zapcore.mkEntry zapcore.ErrorLevel "multi_logger" "multi output")
              []] |}.
Proof. reflexivity. Qed.

(** TestDisabledLevel: nothing is written. *)
Example New_disabled_level :
  Flat.Logger_call atInfo (Flat.New Flat.DisabledLevel "disabled" None)
    "this should not be logged" [] Flat.start
  = Returned tt Flat.start.
Proof. reflexivity. Qed.

(** A fatal call on a logger with an engine writes and exits with code 1. *)
Example Fatal_exits :
  Flat.Logger_call atFatal (Flat.New zapcore.InfoLevel "" None)
    "bye" [] Flat.start
  = Exited 1
      {| defaultLogger := Flat.Logger_noop;
         written :=
           [zapcore.mkLine zapcore.Stdout
              (zapcore.mkEntry zapcore.FatalLevel "" "bye") []] |}.
Proof. reflexivity. Qed.

(** TestDefaultLogger and TestPackageLevelFunctions on the flat facade: the
    package-level call goes to the logger installed last, with the
    formatted error attached; a nil argument resets the slot. *)
Example default_logger_lifecycle :
  (Flat.SetDefaultLogger (Flat.New zapcore.DebugLevel "" None) ;;
   Flat.Error "pkg error" [Flat.Err (errors.New "EOF")] ;;
   Flat.SetDefaultLogger Flat.Logger_nil ;;
   Flat.Info "dropped" [] ;;
   Flat.GetDefaultLogger) Flat.start
  = Returned Flat.Logger_noop
      {| defaultLogger := Flat.Logger_noop;
         written :=
           [zapcore.mkLine zapcore.Stdout
              (zapcore.mkEntry zapcore.ErrorLevel "" "pkg error")
              [zap.String "error" "EOF"]] |}.
Proof. reflexivity. Qed.

(** A component logger and a request logger derived from it: the request's
    field appears on the request logger's records only. *)
Example scoped_derivation :
  (base <- Scoped.Logger_Named (Scoped.New zapcore.InfoLevel "" None) "http" ;;
   req <- Scoped.Logger_With base [zap.String "request_id" "r1"] ;;
   Scoped.Logger_call atInfo req "in" [] ;;
   Scoped.Logger_call atInfo base "out" []) Scoped.start
  = Returned tt
      {| defaultLogger := Scoped.Logger_noop;
         written :=
           [zapcore.mkLine zapcore.Stdout
              (zapcore.mkEntry zapcore.InfoLevel "http" "in")
              [zap.String "request_id" "r1"];
            zapcore.mkLine zapcore.Stdout
              (zapcore.mkEntry zapcore.InfoLevel "http" "out") []] |}.
Proof. reflexivity. Qed.

(** * Further properties of the facade *)

(** ** Loggers built by New *)

Lemma Flat_New_engine (level : zapcore.Level) (prefix : string)
    (logFile : option nat) :
  Flat.New level prefix logFile
  = Flat.Logger_sugar {| Flat.Log := Some (New_engine level prefix logFile) |}.
Proof.
  unfold Flat.New, New_engine, zap.named, zap.New.
  destruct (String.eqb prefix "") eqn:E.
  - apply String.eqb_eq in E. subst prefix. destruct logFile; reflexivity.
  - destruct logFile; reflexivity.
Qed.

Lemma Scoped_New_engine (level : zapcore.Level) (prefix : string)
    (logFile : option nat) :
  Scoped.New level prefix logFile
  = Scoped.Logger_sugar
      {| Scoped.Log := Some (New_engine level prefix logFile) |}.
Proof.
  unfold Scoped.New, New_engine, zap.named, zap.New.
  destruct (String.eqb prefix "") eqn:E.
  - apply String.eqb_eq in E. subst prefix. destruct logFile; reflexivity.
  - destruct logFile; reflexivity.
Qed.

Lemma New_engine_lines (level : zapcore.Level) (prefix : string)
    (logFile : option nat) (lvl : zapcore.Level) (msg : string)
    (fs : list zapcore.Field) :
  zap.lines (New_engine level prefix logFile) lvl msg fs
  = if zapcore.Level_Enabled level lvl
    then record_on (New_sinks logFile) lvl prefix msg fs
    else [].
Proof.
  unfold zap.lines, New_engine, record_on, New_sinks.
  destruct logFile as [fd|]; cbn;
    destruct (zapcore.Level_Enabled level lvl);
    destruct (lvl <? zapcore.DPanicLevel)%Z; reflexivity.
Qed.

Lemma appended_nil (L : Type) (p : Process L) : appended p [] = p.
Proof. destruct p as [d w]. unfold appended. cbn. now rewrite app_nil_r. Qed.

Lemma New_call_lines (level : zapcore.Level) (prefix : string)
    (logFile : option nat) (m : Leveled) (msg : string)
    (fs : list zapcore.Field) :
  m <> atFatal ->
  (forall p,
      Flat.Logger_call m (Flat.New level prefix logFile) msg fs p
      = Returned tt
          (appended p
             (if zapcore.Level_Enabled level (level_of m)
              then record_on (New_sinks logFile) (level_of m) prefix msg fs
              else [])))
  /\ (forall p,
        Scoped.Logger_call m (Scoped.New level prefix logFile) msg fs p
        = Returned tt
            (appended p
               (if zapcore.Level_Enabled level (level_of m)
                then record_on (New_sinks logFile) (level_of m) prefix msg fs
                else []))).
Proof.
  intros Hm. rewrite Flat_New_engine, Scoped_New_engine.
  split; intros p; destruct m; try congruence;
    cbn [Flat.Logger_call Scoped.Logger_call];
    unfold Flat.SugarLogger_Debug, Flat.SugarLogger_Info,
      Flat.SugarLogger_Warn, Flat.SugarLogger_Error,
      Scoped.sugarLogger_Debug, Scoped.sugarLogger_Info,
      Scoped.sugarLogger_Warn, Scoped.sugarLogger_Error,
      zap.Logger_Debug, zap.Logger_Info, zap.Logger_Warn, zap.Logger_Error,
      zap.Logger_log, write, appended;
    cbn [Flat.Log Scoped.Log level_of];
    now rewrite New_engine_lines.
Qed.


(** X1. A logger built by [New] writes a non-fatal call exactly when the
    call's level is at least the configured one: then one record goes to
    standard output, and one more to the file when a file was given, each
    with the prefix as logger name, the message and the call's fields. *)
Theorem New_writes_enabled_records (level : zapcore.Level) (prefix : string)
    (logFile : option nat) (m : Leveled) (msg : string)
    (fs : list zapcore.Field) :
  m <> atFatal ->
  (forall p,
      Flat.Logger_call m (Flat.New level prefix logFile) msg fs p
      = Returned tt
          (appended p
             (if zapcore.Level_Enabled level (level_of m)
              then record_on (New_sinks logFile) (level_of m) prefix msg fs
              else [])))
  /\ (forall p,
        Scoped.Logger_call m (Scoped.New level prefix logFile) msg fs p
        = Returned tt
            (appended p
               (if zapcore.Level_Enabled level (level_of m)
                then record_on (New_sinks logFile) (level_of m) prefix msg fs
                else []))).
Proof. apply New_call_lines. Qed.

Lemma New_writes_enabled_records_witness :
  Flat.Logger_call atWarn (Flat.New zapcore.InfoLevel "file_logger" (Some 7))
    "writing to file" [] Flat.start
  = Returned tt
      (appended Flat.start
         [zapcore.mkLine zapcore.Stdout
            (zapcore.mkEntry zapcore.WarnLevel "file_logger" "writing to file")
            [];
          zapcore.mkLine (zapcore.File 7)
            (zapcore.mkEntry zapcore.WarnLevel "file_logger" "writing to file")
            []]).
Proof.
  apply (proj1 (New_writes_enabled_records zapcore.InfoLevel "file_logger"
                  (Some 7) atWarn "writing to file" [] ltac:(discriminate))).
Defined.

(** X2. [Fatal] on a logger built by [New] always exits with code 1,
    whatever the configured level; the record is written first when the
    level admits it. *)
Theorem New_Fatal_always_exits (level : zapcore.Level) (prefix : string)
    (logFile : option nat) (msg : string) (fs : list zapcore.Field) :
  (forall p,
      Flat.Logger_call atFatal (Flat.New level prefix logFile) msg fs p
      = Exited 1
          (appended p
             (if zapcore.Level_Enabled level zapcore.FatalLevel
              then record_on (New_sinks logFile) zapcore.FatalLevel
                     prefix msg fs
              else [])))
  /\ (forall p,
        Scoped.Logger_call atFatal (Scoped.New level prefix logFile) msg fs p
        = Exited 1
            (appended p
               (if zapcore.Level_Enabled level zapcore.FatalLevel
                then record_on (New_sinks logFile) zapcore.FatalLevel
                       prefix msg fs
                else []))).
Proof.
  rewrite Flat_New_engine, Scoped_New_engine.
  split; intros p;
    cbn [Flat.Logger_call Scoped.Logger_call];
    unfold Flat.SugarLogger_Fatal, Scoped.sugarLogger_Fatal,
      zap.Logger_Fatal, zap.Logger_log, write, bind, exit, appended;
    cbn [Flat.Log Scoped.Log];
    now rewrite New_engine_lines.
Qed.

(** X3. With [DisabledLevel()] as its level, a logger built by [New]
    writes nothing for Debug, Info, Warn and Error, whatever the prefix and
    the file: the call returns and the process is as before. *)
Theorem DisabledLevel_silences (prefix : string) (logFile : option nat)
    (m : Leveled) (msg : string) (fs : list zapcore.Field) :
  m <> atFatal ->
  (forall p,
      Flat.Logger_call m (Flat.New Flat.DisabledLevel prefix logFile) msg fs p
      = Returned tt p)
  /\ (forall p,
        Scoped.Logger_call m
          (Scoped.New Scoped.DisabledLevel prefix logFile) msg fs p
        = Returned tt p).
Proof.
  intros Hm.
  destruct (New_call_lines Flat.DisabledLevel prefix logFile
              m msg fs Hm) as [HF HS].
  split; intros p.
  - rewrite HF. destruct m; try congruence; cbn; now rewrite appended_nil.
  - unfold Scoped.DisabledLevel. fold Flat.DisabledLevel. rewrite HS.
    destruct m; try congruence; cbn; now rewrite appended_nil.
Qed.

Lemma DisabledLevel_silences_witness :
  Flat.Logger_call atError (Flat.New Flat.DisabledLevel "disabled" (Some 4))
    "this should not be logged" [] Flat.start
  = Returned tt Flat.start.
Proof.
  apply (proj1 (DisabledLevel_silences "disabled" (Some 4) atError
                  "this should not be logged" [] ltac:(discriminate))).
Defined.

(** ** What a leveled call can and cannot do *)





(** ** The guarded default slot *)






(** X6. After [SetDefaultLogger(l)] with a non-nil [l], [GetDefaultLogger]
    returns [l] itself with nothing written, and each package-level leveled
    function does exactly what the same method of [l] does. *)
Theorem default_slot_round_trip (l : Flat.Logger) (p : Process Flat.Logger) :
  l <> Flat.Logger_nil ->
  (Flat.SetDefaultLogger l ;; Flat.GetDefaultLogger) p
  = Returned l {| defaultLogger := l; written := written p |}
  /\ forall m msg fs,
       (Flat.SetDefaultLogger l ;; package_call m msg fs) p
       = (Flat.SetDefaultLogger l ;; Flat.Logger_call m l msg fs) p.
Proof.
  intros Hnil. destruct l as [| |s]; try congruence.
  - split; [reflexivity|]. intros m msg fs. destruct m; reflexivity.
  - split; [reflexivity|]. intros m msg fs. destruct m; reflexivity.
Qed.

Lemma default_slot_round_trip_witness :
  (Flat.SetDefaultLogger (Flat.New zapcore.DebugLevel "" None) ;;
   Flat.GetDefaultLogger) Flat.start
  = Returned (Flat.New zapcore.DebugLevel "" None)
      {| defaultLogger := Flat.New zapcore.DebugLevel "" None;
         written := written Flat.start |}.
Proof.
  apply (default_slot_round_trip (Flat.New zapcore.DebugLevel "" None)
           Flat.start).
  discriminate.
Defined.

(** ** Child loggers and context loggers always carry an engine *)

(** X7. Whatever the parent and the prefix, [NewChildLogger] returns a
    logger that is not nil and whose [Zap()] is not nil: it never hands out
    a concrete logger without an engine. *)
Theorem NewChildLogger_has_engine (parent : Scoped.Logger) (prefix : string)
    (p : Process Scoped.Logger) :
  exists l h,
    Scoped.NewChildLogger parent prefix p = Returned l p
    /\ l <> Scoped.Logger_nil
    /\ Scoped.Logger_Zap l p = Returned (Some h) p.
Proof.
  unfold Scoped.NewChildLogger.
  destruct parent as [| |[[h|]]]; cbn; unfold bind; cbn;
    try (destruct (String.eqb prefix ""); cbn);
    do 2 eexists; (split; [reflexivity|split; [discriminate|reflexivity]]).
Qed.

(** X8. Whatever the context holds, [LoggerFromContext] returns a logger
    that is not nil and whose [Zap()] is not nil, so the engine of the
    result can be used without a check. *)
Theorem LoggerFromContext_has_engine (ctx : Scoped.Context)
    (p : Process Scoped.Logger) :
  exists l h,
    Scoped.LoggerFromContext ctx p = Returned l p
    /\ l <> Scoped.Logger_nil
    /\ Scoped.Logger_Zap l p = Returned (Some h) p.
Proof.
  unfold Scoped.LoggerFromContext.
  destruct (Scoped.Value ctx Scoped.loggerCtxKey) as [| |[[h|]]|v]; cbn;
    do 2 eexists; (split; [reflexivity|split; [discriminate|reflexivity]]).
Qed.

(** X9. On a concrete parent with an engine [NewChildLogger(parent, prefix)]
    and [parent.Named(prefix)] return the same logger, for every prefix,
    the empty one included. They differ on a parent without an engine:
    [NewChildLogger] gives the no-op logger, [Named] the parent itself. *)
Theorem NewChildLogger_agrees_with_Named (h : zap.Logger) (prefix : string)
    (p : Process Scoped.Logger) :
  Scoped.NewChildLogger (Scoped.Logger_sugar {| Scoped.Log := Some h |})
    prefix p
  = Scoped.Logger_Named (Scoped.Logger_sugar {| Scoped.Log := Some h |})
      prefix p
  /\ Scoped.NewChildLogger (Scoped.Logger_sugar {| Scoped.Log := None |})
       prefix p
     = Returned Scoped.Logger_noop p
  /\ Scoped.Logger_Named (Scoped.Logger_sugar {| Scoped.Log := None |})
       prefix p
     = Returned (Scoped.Logger_sugar {| Scoped.Log := None |}) p.
Proof.
  split; [|split; reflexivity].
  unfold Scoped.NewChildLogger, Scoped.Logger_Named, Scoped.sugarLogger_Named,
    zap.Logger_Named, zap.named, bind.
  cbn. destruct (String.eqb prefix ""); reflexivity.
Qed.

Lemma Core_Write_rename (c : zapcore.Core) (lvl : zapcore.Level)
    (n n' msg : string) (fs : list zapcore.Field) :
  zapcore.Core_Write c (zapcore.mkEntry lvl n' msg) fs
  = map (rename_line n') (zapcore.Core_Write c (zapcore.mkEntry lvl n msg) fs).
Proof.
  induction c as [enab out context|cores IH|] using Core_ind_nested.
  - cbn. now destruct (zapcore.Level_Enabled enab lvl).
  - cbn [zapcore.Core_Write].
    induction IH as [|c cs Hc _ IHcs]; [reflexivity|].
    cbn [flat_map]. now rewrite map_app, Hc, IHcs.
  - reflexivity.
Qed.

Lemma named_lines (h : zap.Logger) (s : string) (lvl : zapcore.Level)
    (msg : string) (fs : list zapcore.Field) :
  zap.lines (zap.named h s) lvl msg fs
  = map (rename_line (zap.name (zap.named h s))) (zap.lines h lvl msg fs).
Proof.
  unfold zap.lines. rewrite named_same_core.
  destruct ((lvl <? zapcore.DPanicLevel)%Z
            && negb (zapcore.Core_Enabled (zap.core h) lvl)); [reflexivity|].
  apply Core_Write_rename.
Qed.

(** X10. A child made by [NewChildLogger] from a parent with an engine
    writes to the parent's sinks under the parent's levels: for every call
    its lines are the lines the parent would write, with only the logger
    name replaced by the child's. *)
Theorem child_inherits_sinks (parent : Scoped.Logger) (h : zap.Logger)
    (prefix : string) (p : Process Scoped.Logger) :
  parent <> Scoped.Logger_nil ->
  Scoped.Logger_Zap parent p = Returned (Some h) p ->
  exists h',
    Scoped.NewChildLogger parent prefix p
    = Returned (Scoped.Logger_sugar {| Scoped.Log := Some h' |}) p
    /\ zapcore.Core_outs (zap.core h') = zapcore.Core_outs (zap.core h)
    /\ forall lvl msg fs,
         zap.lines h' lvl msg fs
         = map (rename_line (zap.name h')) (zap.lines h lvl msg fs).
Proof.
  intros Hnil Hz. exists (zap.named h prefix).
  split; [|split].
  - destruct parent as [| |[[h0|]]]; try congruence;
      try discriminate Hz; inversion Hz; subst h;
      unfold Scoped.NewChildLogger, zap.Logger_Named, zap.named, bind; cbn;
      destruct (String.eqb prefix ""); reflexivity.
  - now rewrite named_same_core.
  - intros. apply named_lines.
Qed.

Lemma child_inherits_sinks_witness :
  exists h',
    Scoped.NewChildLogger (Scoped.New zapcore.WarnLevel "app" (Some 5))
      "db" Scoped.start
    = Returned (Scoped.Logger_sugar {| Scoped.Log := Some h' |}) Scoped.start
    /\ zapcore.Core_outs (zap.core h')
       = zapcore.Core_outs
           (zap.core (New_engine zapcore.WarnLevel "app" (Some 5)))
    /\ forall lvl msg fs,
         zap.lines h' lvl msg fs
         = map (rename_line (zap.name h'))
             (zap.lines (New_engine zapcore.WarnLevel "app" (Some 5))
                lvl msg fs).
Proof.
  apply (child_inherits_sinks
           (Scoped.New zapcore.WarnLevel "app" (Some 5))
           (New_engine zapcore.WarnLevel "app" (Some 5)) "db" Scoped.start).
  - discriminate.
  - reflexivity.
Defined.

(** ** Nested context bindings *)

(** X11. The innermost [LoggerToContext] decides: what [LoggerFromContext]
    returns after attaching [l] does not depend on the context [l] was
    attached to. Attaching nil, or a concrete logger without an engine,
    therefore hides a valid logger attached further out (the no-op logger
    comes back), and a binding under another key hides nothing. *)
Theorem innermost_logger_wins (ctx : Scoped.Context) (outer l : Scoped.Logger)
    (k : string) (v : Scoped.any) (p : Process Scoped.Logger) :
  Scoped.LoggerFromContext
    (Scoped.LoggerToContext (Scoped.LoggerToContext ctx outer) l) p
  = Scoped.LoggerFromContext (Scoped.LoggerToContext Scoped.Background l) p
  /\ Scoped.LoggerFromContext
       (Scoped.LoggerToContext (Scoped.LoggerToContext ctx outer)
          Scoped.Logger_nil) p
     = Returned Scoped.Logger_noop p
  /\ Scoped.LoggerFromContext
       (Scoped.LoggerToContext (Scoped.LoggerToContext ctx outer)
          (Scoped.Logger_sugar {| Scoped.Log := None |})) p
     = Returned Scoped.Logger_noop p
  /\ Scoped.LoggerFromContext
       (Scoped.WithValue (Scoped.LoggerToContext ctx l) (Scoped.otherKey k) v) p
     = Scoped.LoggerFromContext (Scoped.LoggerToContext ctx l) p
  /\ Scoped.Value (Scoped.LoggerToContext ctx l) (Scoped.otherKey k)
     = Scoped.Value ctx (Scoped.otherKey k).
Proof. repeat split. Qed.

(** ** With and Named compose *)

Lemma Core_With_With (c : zapcore.Core) (fs1 fs2 : list zapcore.Field) :
  zapcore.Core_With (zapcore.Core_With c fs1) fs2
  = zapcore.Core_With c (fs1 ++ fs2)%list.
Proof.
  induction c as [enab out context|cores IH|] using Core_ind_nested.
  - cbn. now rewrite <- app_assoc.
  - cbn [zapcore.Core_With]. f_equal.
    induction IH as [|c cs Hc _ IHcs]; [reflexivity|].
    cbn [map]. now rewrite Hc, IHcs.
  - reflexivity.
Qed.

Lemma with_fields_with_fields (h : zap.Logger) (fs1 fs2 : list zapcore.Field) :
  zap.with_fields (zap.with_fields h fs1) fs2
  = zap.with_fields h (fs1 ++ fs2)%list.
Proof.
  destruct fs1 as [|f1 fs1]; [reflexivity|].
  destruct fs2 as [|f2 fs2].
  - now rewrite app_nil_r.
  - cbn. now rewrite Core_With_With.
Qed.

Lemma named_with_fields (h : zap.Logger) (fs : list zapcore.Field)
    (n : string) :
  zap.named (zap.with_fields h fs) n = zap.with_fields (zap.named h n) fs.
Proof.
  unfold zap.named, zap.with_fields.
  destruct fs; destruct (String.eqb n ""); reflexivity.
Qed.

(** X12. Adding fields in two steps is adding them at once: for every
    logger, [l.With(fs1...).With(fs2...)] and [l.With(fs1..., fs2...)] give
    the same result (the same panic for the nil interface). *)
Theorem With_With (l : Scoped.Logger) (fs1 fs2 : list zapcore.Field)
    (p : Process Scoped.Logger) :
  (c <- Scoped.Logger_With l fs1 ;; Scoped.Logger_With c fs2) p
  = Scoped.Logger_With l (fs1 ++ fs2)%list p.
Proof.
  destruct l as [| |[[h|]]]; try reflexivity.
  unfold Scoped.Logger_With, Scoped.sugarLogger_With, zap.Logger_With, bind, ret.
  cbn. now rewrite with_fields_with_fields.
Qed.

(** X13. The order of [With] and [Named] does not matter: for every logger,
    [l.With(fs...).Named(n)] and [l.Named(n).With(fs...)] give the same
    result. *)
Theorem With_Named_commute (l : Scoped.Logger) (fs : list zapcore.Field)
    (n : string) (p : Process Scoped.Logger) :
  (c <- Scoped.Logger_With l fs ;; Scoped.Logger_Named c n) p
  = (c <- Scoped.Logger_Named l n ;; Scoped.Logger_With c fs) p.
Proof.
  destruct l as [| |[[h|]]]; try reflexivity.
  unfold Scoped.Logger_With, Scoped.Logger_Named, Scoped.sugarLogger_With,
    Scoped.sugarLogger_Named, zap.Logger_With, zap.Logger_Named, bind, ret.
  cbn. now rewrite named_with_fields.
Qed.

(** X14. [With] without fields and [Named] with the empty name change
    nothing: on every non-nil logger each returns a logger equal to the
    receiver. *)
Theorem With_nothing_Named_empty (l : Scoped.Logger)
    (p : Process Scoped.Logger) :
  l <> Scoped.Logger_nil ->
  Scoped.Logger_With l [] p = Returned l p
  /\ Scoped.Logger_Named l "" p = Returned l p.
Proof.
  intros Hnil. destruct l as [| |[[h|]]]; try congruence; split; reflexivity.
Qed.

Lemma With_nothing_Named_empty_witness :
  Scoped.Logger_With (Scoped.New zapcore.InfoLevel "app" None) [] Scoped.start
  = Returned (Scoped.New zapcore.InfoLevel "app" None) Scoped.start
  /\ Scoped.Logger_Named (Scoped.New zapcore.InfoLevel "app" None) ""
       Scoped.start
     = Returned (Scoped.New zapcore.InfoLevel "app" None) Scoped.start.
Proof.
  apply (With_nothing_Named_empty (Scoped.New zapcore.InfoLevel "app" None)
           Scoped.start).
  discriminate.
Defined.

(** ** More on formatError *)

Lemma single_line_app (a b : string) :
  single_line (a ++ b) = single_line a ++ single_line b.
Proof.
  induction a as [|c a IH]; [reflexivity|].
  cbn [append single_line]. destruct (is_break c); cbn; now rewrite IH.
Qed.

Lemma single_line_Join (ms : list string) :
  single_line (strings.Join ms (String LF ""))
  = strings.Join (map single_line ms) " | ".
Proof.
  induction ms as [|m rest IH]; [reflexivity|].
  destruct rest as [|m' rest]; [reflexivity|].
  change (strings.Join (m :: m' :: rest) (String LF ""))
    with (m ++ String LF "" ++ strings.Join (m' :: rest) (String LF "")).
  change (strings.Join (map single_line (m :: m' :: rest)) " | ")
    with (single_line m ++ " | "
          ++ strings.Join (map single_line (m' :: rest)) " | ").
  rewrite single_line_app. f_equal.
  change (String LF "" ++ strings.Join (m' :: rest) (String LF ""))
    with (String LF (strings.Join (m' :: rest) (String LF ""))).
  cbn [single_line]. change (is_break LF) with true. cbn iota.
  now rewrite IH.
Qed.

(** X15. [formatError] distributes over concatenation: formatting a message
    made of two parts is formatting each part and concatenating. *)
Theorem formatError_concat (a b : string) :
  Flat.formatError (Some (a ++ b))
  = Flat.formatError (Some a) ++ Flat.formatError (Some b).
Proof. rewrite !formatError_single_line. apply single_line_app. Qed.

(** X16. The error field of joined errors is the formatted sub-messages
    joined by " | ": nil sub-errors are skipped, and joining nothing gives
    the empty value. *)
Theorem Err_of_joined_errors (errs : list error) :
  zapcore.String' (Flat.Err (errors.Join errs))
  = strings.Join
      (map (fun m => Flat.formatError (Some m)) (errors.messages errs)) " | ".
Proof.
  unfold errors.Join.
  destruct (errors.messages errs) as [|m ms] eqn:E; [reflexivity|].
  cbn [Flat.Err zap.String zapcore.String'].
  rewrite formatError_single_line, single_line_Join.
  f_equal. apply map_ext. intros x. now rewrite formatError_single_line.
Qed.

(** X17. A message without newline and without tab is rendered as it is. *)
Theorem Err_keeps_clean_message (msg : string) :
  occurs LF msg = false ->
  occurs TAB msg = false ->
  zapcore.String' (Flat.Err (Some msg)) = msg
  /\ Flat.Err (Some msg) = zap.String "error" msg.
Proof.
  intros Hl Ht. cbn [Flat.Err zap.String zapcore.String'].
  rewrite formatError_single_line, single_line_fixed by assumption.
  split; reflexivity.
Qed.

Lemma Err_keeps_clean_message_witness :
  zapcore.String' (Flat.Err (Some "simple error message"))
  = "simple error message"
  /\ Flat.Err (Some "simple error message")
     = zap.String "error" "simple error message".
Proof.
  apply (Err_keeps_clean_message "simple error message"); reflexivity.
Defined.

(** ** Children of loggers built by New *)

(** X18. A child of a logger built by [New] is the logger [New] would build
    with the same level and file under the dotted name: the child's prefix
    is appended to the parent's after a period, and an empty prefix on
    either side adds nothing. *)
Theorem child_of_New (level : zapcore.Level) (a b : string)
    (logFile : option nat) (p : Process Scoped.Logger) :
  Scoped.NewChildLogger (Scoped.New level a logFile) b p
  = Returned (Scoped.New level (dotted a b) logFile) p.
Proof.
  rewrite !Scoped_New_engine.
  unfold Scoped.NewChildLogger, zap.Logger_Named, zap.named, bind, dotted,
    New_engine.
  cbn. destruct (String.eqb b ""); cbn; [reflexivity|].
  destruct (String.eqb a ""); reflexivity.
Qed.
